(** * text-to-audio: the synthesis notebook and the conversion pipeline

    The repository's executable source is one notebook cell
    ([notebooks/test-tts.ipynb]) that drives the Azure Speech SDK.  The cell is
    embedded as a program over an interface of external calls; the SDK, the
    process environment and the file system are the world the program runs
    in, and every theorem about the cell holds for an arbitrary world.

    The README lists further files (app.py, service.py, audio_processor.py,
    text_processor.py, llm_client.py) that are not part of the sources at
    hand; what is said about them is stated over definitions marked
    "Modelled from the spec". *)

From Stdlib.Strings Require Import Byte.
From Stdlib Require Import Ascii QArith Qcanon.
From stdpp Require Import base option list strings numbers gmap.

Local Open Scope string_scope.
Local Open Scope list_scope.

#[local] Set Warnings "-clear-no-such-hyp".

#[global] Instance byte_eq_dec : EqDecision byte := Byte.byte_eq_dec.

(** * Programs over an interface of external calls *)

(** An interface names the calls a program can make to the outside, what a
    call hands back when it returns and what it hands back when it raises. *)
Record interface := Interface { op : Type; res : Type; err : Type }.

Inductive outcome (E A : Type) : Type :=
| Returned (a : A)
| Raised (e : E).
Arguments Returned {E A} a.
Arguments Raised {E A} e.

Section Prog.
Context {Σ : interface} {E : Type}.

(** A program either finishes with a value, raises, or makes one call and
    continues with whatever the call came back with. *)
Inductive prog (A : Type) : Type :=
| Ret (a : A)
| Raise (e : E)
| Call (c : op Σ) (k : err Σ + res Σ → prog A).
Global Arguments Ret {A} a.
Global Arguments Raise {A} e.
Global Arguments Call {A} c k.

Fixpoint bind {A B} (p : prog A) (f : A → prog B) : prog B :=
  match p with
  | Ret a => f a
  | Raise e => Raise e
  | Call c k => Call c (λ r, bind (k r) f)
  end.

(** One entry of the log: the call made and what came back. *)
Definition event : Type := op Σ * (err Σ + res Σ).

Record run_result (W A : Type) : Type :=
  RunResult { result : outcome E A; after : W; log : list event }.
Global Arguments RunResult {W A} result after log.
Global Arguments result {W A} r.
Global Arguments after {W A} r.
Global Arguments log {W A} r.

Section Run.
Context {W : Type}.
(** The world answers each call from its current state and moves on. *)
Variable respond : op Σ → W → (err Σ + res Σ) * W.

Fixpoint run {A} (p : prog A) (w : W) : run_result W A :=
  match p with
  | Ret a => RunResult (Returned a) w []
  | Raise e => RunResult (Raised e) w []
  | Call c k =>
      let r := respond c w in
      let rest := run (k r.1) r.2 in
      RunResult (result rest) (after rest) ((c, r.1) :: log rest)
  end.

Definition calls {A} (r : run_result W A) : list (op Σ) := (log r).*1.
End Run.
End Prog.
Arguments prog Σ E A : clear implicits.
Arguments event Σ : clear implicits.

#[global] Instance prog_ret {Σ E} : MRet (prog Σ E) := λ A, Ret.
#[global] Instance prog_bind {Σ E} : MBind (prog Σ E) := λ A B f p, bind p f.

(** A call made the way straight-line Python makes it: an exception raised
    inside the call leaves the program at once. *)
Definition call {Σ : interface} (c : op Σ) : prog Σ (err Σ) (res Σ) :=
  Call c (λ r, match r with inl e => Raise e | inr x => Ret x end).

(** A program is straight when it never raises on its own account: the only
    way it fails is that a call it made raised, and it hands that very
    exception on.  Code without [raise] and without [try] is of this kind. *)
Inductive straight {Σ : interface} {A : Type} : prog Σ (err Σ) A → Prop :=
| straight_Ret (a : A) : straight (Ret a)
| straight_Call (c : op Σ) (k : err Σ + res Σ → prog Σ (err Σ) A) :
    (∀ e, k (inl e) = Raise e) →
    (∀ x, straight (k (inr x))) →
    straight (Call c k).

(** An event whose call came back with a value. *)
Definition returned {Σ : interface} (ev : event Σ) : Prop := ∃ x, ev.2 = inr x.

(** The outcome is an exception of the given class. *)
Definition fails_with {X A} (class_of : X → string) (cls : string)
    (o : outcome X A) : Prop :=
  ∃ e, o = Raised e ∧ class_of e = cls.

(** * The notebook cell *)

Module Notebook.

(** ** Values the cell handles *)

Inductive ResultReason := SynthesizingAudioCompleted | Canceled.

Record SpeechSynthesisResult :=
  { reason : ResultReason; audio_data : list byte }.

(** Python is dynamically typed: whatever a call returns is passed on as it
    is.  Objects created by the SDK live on the SDK's side and are known to
    the cell by reference only. *)
Inductive value :=
| PyNone
| PyBool (b : bool)
| PyStr (s : string)
| PyObj (addr : nat)
| PyResult (r : SpeechSynthesisResult).

Record exn := Exn { exn_class : string; exn_msg : string }.

(** ** The calls of lines 26-30, with the arguments the cell gives them *)
Inductive sdk_call :=
| load_dotenv (dotenv_path : string)
| os_getenv (key : string)
| SpeechConfig (subscription region : value)
| set_speech_synthesis_voice_name (speech_config : value) (name : string)
| AudioOutputConfig (filename : string)
| SpeechSynthesizer (speech_config audio_config : value)
| speak_text_async (synthesizer : value) (text : string)
| get (future : value).

#[global] Instance ResultReason_eq_dec : EqDecision ResultReason.
Proof. solve_decision. Defined.
#[global] Instance SpeechSynthesisResult_eq_dec : EqDecision SpeechSynthesisResult.
Proof. solve_decision. Defined.
#[global] Instance value_eq_dec : EqDecision value.
Proof. solve_decision. Defined.
#[global] Instance exn_eq_dec : EqDecision exn.
Proof. solve_decision. Defined.
#[global] Instance sdk_call_eq_dec : EqDecision sdk_call.
Proof. solve_decision. Defined.

Canonical Structure sdk : interface := Interface sdk_call value exn.

Definition py (c : sdk_call) : prog sdk exn value := call (Σ := sdk) c.

(** Lines 26-30 of the code cell, in Python's evaluation order: arguments
    left to right before the call they belong to.  The value of the last
    expression is the value of the cell; it is bound to no name.  The three
    imports of lines 22-24 are taken to have succeeded. *)
Definition cell : prog sdk exn value :=
  _ ← py (load_dotenv "../.env");
  subscription ← py (os_getenv "AZURE_SPEECH_KEY");
  region ← py (os_getenv "AZURE_SPEECH_REGION");
  speech_config ← py (SpeechConfig subscription region);
  _ ← py (set_speech_synthesis_voice_name speech_config "en-US-JennyNeural");
  audio_config ← py (AudioOutputConfig "output.wav");
  synthesizer ← py (SpeechSynthesizer speech_config audio_config);
  future ← py (speak_text_async synthesizer "This is a test of Azure TTS.");
  py (get future).

(** ** A reference world

    One concrete world, used to run the cell on explicit inputs: the
    process environment, the .env files, the files of the working
    directory, the objects the SDK has created, and the speech service as a
    function from the request it receives to its reply, with the requests
    it has received so far.  It follows the behaviour of the libraries:
    load_dotenv keeps variables that are already set, SpeechConfig refuses
    to be built without a key and a region or with an empty one, the output
    file is opened with the synthesizer and the synthesizer is refused when
    the file cannot be opened, and a request the service turns down comes
    back as a cancelled result, not as an exception.  The general theorems
    do not depend on it. *)

Record speech_request :=
  { req_subscription : string; req_region : string;
    req_voice : option string; req_text : string }.

Inductive service_reply := Audio (data : list byte) | Rejected.

Record config :=
  { cfg_subscription : string; cfg_region : string; cfg_voice : option string }.

Inductive object :=
| ConfigObj (c : config)
| AudioOutObj (filename : string)
| SynthObj (c : config) (filename : option string)
| FutureObj (r : SpeechSynthesisResult).

Record world := World
  { dotenv_files : gmap string (gmap string string);
    environ : gmap string string;
    files : gmap string (list byte);
    unwritable : gset string;
    heap : list object;
    service : speech_request → service_reply;
    sent : list speech_request }.

Definition with_environ (w : world) (e : gmap string string) : world :=
  World (dotenv_files w) e (files w) (unwritable w) (heap w) (service w)
        (sent w).
Definition with_files (w : world) (f : gmap string (list byte)) : world :=
  World (dotenv_files w) (environ w) f (unwritable w) (heap w) (service w)
        (sent w).
Definition with_heap (w : world) (h : list object) : world :=
  World (dotenv_files w) (environ w) (files w) (unwritable w) h (service w)
        (sent w).
Definition with_sent (w : world) (q : list speech_request) : world :=
  World (dotenv_files w) (environ w) (files w) (unwritable w) (heap w)
        (service w) q.
Definition with_service (w : world) (svc : speech_request → service_reply)
    : world :=
  World (dotenv_files w) (environ w) (files w) (unwritable w) (heap w) svc
        (sent w).

(** A new object is placed at the end of the heap; its address is returned. *)
Definition alloc (w : world) (o : object) : (exn + value) * world :=
  (inr (PyObj (length (heap w))), with_heap w (heap w ++ [o])).

Definition raises (cls msg : string) (w : world) : (exn + value) * world :=
  (inl (Exn cls msg), w).

(** The class name Python prints for a value. *)
Definition type_name (w : world) (v : value) : string :=
  match v with
  | PyNone => "NoneType"
  | PyBool _ => "bool"
  | PyStr _ => "str"
  | PyResult _ => "SpeechSynthesisResult"
  | PyObj a =>
      match heap w !! a with
      | Some (ConfigObj _) => "SpeechConfig"
      | Some (AudioOutObj _) => "AudioOutputConfig"
      | Some (SynthObj _ _) => "SpeechSynthesizer"
      | Some (FutureObj _) => "ResultFuture"
      | None => "object"
      end
  end.

(** What Python raises when a value has no such attribute or method. *)
Definition no_attribute (v : value) (name : string) (w : world)
    : (exn + value) * world :=
  raises "AttributeError"
         ("'" +:+ type_name w v +:+ "' object has no attribute '" +:+ name
              +:+ "'") w.

(** The configuration behind a value, when the value is a SpeechConfig. *)
Definition config_at (w : world) (v : value) : option config :=
  match v with
  | PyObj a =>
      match heap w !! a with
      | Some (ConfigObj c) => Some c
      | _ => None
      end
  | _ => None
  end.

Definition speak (c : config) (text : string) : speech_request :=
  {| req_subscription := cfg_subscription c; req_region := cfg_region c;
     req_voice := cfg_voice c; req_text := text |}.

(** The messages of the SDK's RuntimeError are given by their first line;
    the SDK appends the call stack of its native library. *)
Definition azure (c : sdk_call) (w : world) : (exn + value) * world :=
  match c with
  | load_dotenv path =>
      (* variables already in the environment are kept (override=False);
         the answer is True when the file holds a variable *)
      match dotenv_files w !! path with
      | Some vars =>
          (inr (PyBool (bool_decide (vars ≠ ∅))),
           with_environ w (environ w ∪ vars))
      | None => (inr (PyBool false), w)
      end
  | os_getenv key =>
      (inr (from_option PyStr PyNone (environ w !! key)), w)
  | SpeechConfig PyNone PyNone =>
      raises "ValueError"
             "cannot construct SpeechConfig with the given arguments" w
  | SpeechConfig PyNone _ =>
      raises "ValueError"
             "either subscription key or authorization token must be given along with a region"
             w
  | SpeechConfig _ PyNone =>
      raises "ValueError"
             "either endpoint, host, or region must be given along with a subscription key"
             w
  | SpeechConfig (PyStr s) (PyStr r) =>
      (* the native library refuses an empty key or region *)
      if decide (s = "" ∨ r = "")
      then raises "RuntimeError"
                  "Exception with an error code: 0x5 (SPXERR_INVALID_ARG)" w
      else alloc w (ConfigObj {| cfg_subscription := s; cfg_region := r;
                                 cfg_voice := None |})
  | SpeechConfig (PyStr _) v | SpeechConfig v _ => no_attribute v "encode" w
  | set_speech_synthesis_voice_name (PyObj a) name =>
      match heap w !! a with
      | Some (ConfigObj c) =>
          (inr PyNone,
           with_heap w (<[a := ConfigObj
                               {| cfg_subscription := cfg_subscription c;
                                  cfg_region := cfg_region c;
                                  cfg_voice := Some name |}]> (heap w)))
      | Some _ =>
          (* an attribute of that name is put on the other object *)
          (inr PyNone, w)
      | None => no_attribute (PyObj a) "speech_synthesis_voice_name" w
      end
  | set_speech_synthesis_voice_name (PyResult _) _ => (inr PyNone, w)
  | set_speech_synthesis_voice_name v _ =>
      no_attribute v "speech_synthesis_voice_name" w
  | AudioOutputConfig filename => alloc w (AudioOutObj filename)
  | SpeechSynthesizer speech_config audio_config =>
      match config_at w speech_config with
      | Some c =>
          match audio_config with
          | PyNone =>
              (* no audio configuration: the default speaker, no file *)
              alloc w (SynthObj c None)
          | PyObj b =>
              match heap w !! b with
              | Some (AudioOutObj f) =>
                  (* the output file is opened, empty, with the synthesizer *)
                  if decide (f ∈ unwritable w)
                  then raises "RuntimeError"
                              "Exception with an error code: 0x8 (SPXERR_FILE_OPEN_FAILED)"
                              w
                  else alloc (with_files w (<[f := []]> (files w)))
                             (SynthObj c (Some f))
              | _ => no_attribute audio_config "_handle" w
              end
          | _ => no_attribute audio_config "_handle" w
          end
      | None =>
          raises "ValueError" "speech_config must be a SpeechConfig instance" w
      end
  | speak_text_async (PyObj a) text =>
      match heap w !! a with
      | Some (SynthObj c f) =>
          (* one request goes out; audio that comes back is written *)
          let w' := with_sent w (sent w ++ [speak c text]) in
          match service w (speak c text) with
          | Audio data =>
              alloc (with_files w' (from_option (λ name, <[name := data]>)
                                                id f (files w)))
                    (FutureObj {| reason := SynthesizingAudioCompleted;
                                  audio_data := data |})
          | Rejected =>
              alloc w' (FutureObj {| reason := Canceled; audio_data := [] |})
          end
      | _ => no_attribute (PyObj a) "speak_text_async" w
      end
  | speak_text_async v _ => no_attribute v "speak_text_async" w
  | get (PyObj a) =>
      match heap w !! a with
      | Some (FutureObj r) => (inr (PyResult r), w)
      | _ => no_attribute (PyObj a) "get" w
      end
  | get v => no_attribute v "get" w
  end.

Definition RIFF : list byte := [x52; x49; x46; x46].
Definition WAVE : list byte := [x57; x41; x56; x45].


(** The same with a .env file that holds both credentials. *)
Definition configured (svc : speech_request → service_reply) : world :=
  World {[ "../.env" := {[ "AZURE_SPEECH_KEY" := "k3y";
                           "AZURE_SPEECH_REGION" := "westeurope" ]} ]}
        ∅ ∅ ∅ [] svc [].

(** The service rejects every request. *)
Definition refused : world := configured (λ _, Rejected).


(** One run in which the service answers with RIFF, and the world after
    it in which the service answers with WAVE. *)
Definition once : world := configured (λ _, Audio RIFF).
Definition twice : world :=
  with_service (after (run azure cell once)) (λ _, Audio WAVE).
Abbreviation first_run := (run azure cell once).
Abbreviation second_run := (run azure cell twice).

Definition cancelled : value :=
  PyResult {| reason := Canceled; audio_data := [] |}.


(** ** Vocabulary for the statements *)

(** The calls of the cell in the order of the source; only the values that
    come back from earlier calls vary from run to run. *)
Definition script (subscription region speech_config audio_config
                   synthesizer future : value) : list sdk_call :=
  [ load_dotenv "../.env";
    os_getenv "AZURE_SPEECH_KEY";
    os_getenv "AZURE_SPEECH_REGION";
    SpeechConfig subscription region;
    set_speech_synthesis_voice_name speech_config "en-US-JennyNeural";
    AudioOutputConfig "output.wav";
    SpeechSynthesizer speech_config audio_config;
    speak_text_async synthesizer "This is a test of Azure TTS.";
    get future ].



(** The call that sends text to the speech service. *)
Definition requests_speech (c : sdk_call) : bool :=
  match c with
  | speak_text_async _ _ => true
  | _ => false
  end.

(** No .env file; both variables are exported in the process environment. *)
Definition exported : world :=
  World ∅ {[ "AZURE_SPEECH_KEY" := "k3y"; "AZURE_SPEECH_REGION" := "westeurope" ]}
        ∅ ∅ [] (λ _, Audio RIFF) [].

(** Both credentials are there, but output.wav cannot be opened for
    writing. *)
Definition read_only : world :=
  World (dotenv_files once) ∅ ∅ {[ "output.wav" ]} [] (λ _, Audio RIFF) [].

(** The key is set, to the empty string. *)
Definition empty_key : world :=
  World ∅ {[ "AZURE_SPEECH_KEY" := ""; "AZURE_SPEECH_REGION" := "westeurope" ]}
        ∅ ∅ [] (λ _, Rejected) [].

End Notebook.

(** * The conversion pipeline

    The orchestration layer (service.py), the extractor (text_processor.py),
    the optimizer (llm_client.py) and the synthesizer wrapper
    (audio_processor.py) are named by the README but are not among the
    sources; the definitions of this module follow the specification. *)

Module Pipeline.

(** Modelled from the spec: the input payload of a request (service.py is
    missing), "a tagged union of raw text, uploaded PDF bytes, URL
    string". *)
Inductive payload :=
| RawText (text : string)
| PdfBytes (data : list byte)
| Url (address : string).

(** Modelled from the spec: the full request handed to the orchestration
    service (service.py is missing), "input payload + optimize flag + voice
    + rate". *)
Record request := Request
  { input : payload; optimize : bool; voice : string; rate : Qc }.

(** Modelled from the spec: the error taxonomy of section 7. *)
Inductive error :=
| ConfigurationError
| ExtractionError
| ExternalServiceError
| SynthesisError
| IOError.

(** Modelled from the spec: the three stages of the pipeline, used to tag a
    failure with the stage it came from. *)
Inductive stage := Extraction | Optimization | Synthesis.

Record failure := Failure { failed_stage : stage; cause : error }.

(** Modelled from the spec: the three components the orchestration service
    calls (text_processor.py, llm_client.py and audio_processor.py are
    missing).  The extractor and the optimizer return text, the synthesizer
    returns the path of the file it wrote; each may fail with an error. *)
Inductive component_call :=
| Extract (input : payload)
| Optimize (text : string)
| Synthesize (text voice : string) (rate : Qc).

Canonical Structure components : interface :=
  Interface component_call string error.

(** A component call whose failure is reported with the stage it belongs to. *)
Definition tagged (s : stage) (c : component_call)
    : prog components failure string :=
  Call c (λ r, match r with
               | inl e => Raise (Failure s e)
               | inr x => Ret x
               end).

(** Modelled from the spec: the orchestration service (service.py is
    missing), "calls Extractor, optionally Optimizer, then Synthesizer, in
    that fixed sequence; returns the output file path or propagates the
    first failure from any step, tagged with which stage failed". *)
Definition convert (req : request) : prog components failure string :=
  text ← tagged Extraction (Extract (input req));
  final ← (if optimize req
           then tagged Optimization (Optimize text)
           else mret text);
  tagged Synthesis (Synthesize final (voice req) (rate req)).

(** The shapes a conversion may take according to the contract of the
    orchestration service: what was called, in which order, with what, and
    what the request ends in. *)
Inductive fixed_sequence (req : request)
    : list (event components) → outcome failure string → Prop :=
| extraction_failed e :
    fixed_sequence req
      [(Extract (input req), inl e)]
      (Raised (Failure Extraction e))
| optimization_failed text e :
    optimize req = true →
    fixed_sequence req
      [(Extract (input req), inr text); (Optimize text, inl e)]
      (Raised (Failure Optimization e))
| synthesis_failed_optimized text improved e :
    optimize req = true →
    fixed_sequence req
      [(Extract (input req), inr text); (Optimize text, inr improved);
       (Synthesize improved (voice req) (rate req), inl e)]
      (Raised (Failure Synthesis e))
| converted_optimized text improved path :
    optimize req = true →
    fixed_sequence req
      [(Extract (input req), inr text); (Optimize text, inr improved);
       (Synthesize improved (voice req) (rate req), inr path)]
      (Returned path)
| synthesis_failed_plain text e :
    optimize req = false →
    fixed_sequence req
      [(Extract (input req), inr text);
       (Synthesize text (voice req) (rate req), inl e)]
      (Raised (Failure Synthesis e))
| converted_plain text path :
    optimize req = false →
    fixed_sequence req
      [(Extract (input req), inr text);
       (Synthesize text (voice req) (rate req), inr path)]
      (Returned path).





(** ** Reference worlds: toy document libraries, and three toy components
       with a call counter *)
Fixpoint strip_tags (inside : bool) (s : string) : string :=
  match s with
  | EmptyString => EmptyString
  | String c rest =>
      if Ascii.eqb c "<"%char then strip_tags true rest
      else if Ascii.eqb c ">"%char then strip_tags false rest
      else if inside then strip_tags inside rest
      else String c (strip_tags inside rest)
  end.

Definition toy_pdf_pages (data : list byte) : option (list string) :=
  match data with
  | [] => None
  | _ => Some ["Hello "; ""; "world."]
  end.

Definition toy_fetch (address : string) : option string :=
  if decide (address = "http://invalid.example/notfound") then None
  else Some "<html><p>Hello world.</p></html>".

Definition hello : request :=
  Request (RawText "Hello world.") false "en-US-AriaNeural" 1%Qc.

Definition notfound : request :=
  Request (Url "http://invalid.example/notfound") true "en-US-AriaNeural" 1%Qc.

Definition toy (c : component_call) (n : nat) : (error + string) * nat :=
  match c with
  | Extract (RawText text) => (inr text, S n)
  | Extract (PdfBytes data) =>
      (from_option (λ pages, inr (String.concat "" pages))
                   (inl ExtractionError) (toy_pdf_pages data), S n)
  | Extract (Url address) =>
      (from_option (λ body, inr (strip_tags false body))
                   (inl ExtractionError) (toy_fetch address), S n)
  | Optimize text => (inr ("Narration. " +:+ text), S n)
  | Synthesize text _ _ =>
      if decide (text = "") then (inl SynthesisError, S n)
      else (inr "audio_output/speech.wav", S n)
  end.

End Pipeline.

(** * Facts about running programs *)

Section ProgFacts.
Context {Σ : interface} {W : Type}.
Variable respond : op Σ → W → (err Σ + res Σ) * W.

(** Running [p] and then [f] is running [p], and, if it returned, running
    [f] from where [p] left the world; the logs follow one another. *)
Lemma run_bind {E A B} (p : prog Σ E A) (f : A → prog Σ E B) (w : W) :
  run respond (p ≫= f) w =
  match result (run respond p w) with
  | Returned a =>
      let rest := run respond (f a) (after (run respond p w)) in
      RunResult (result rest) (after rest)
                (log (run respond p w) ++ log rest)
  | Raised e =>
      RunResult (Raised e) (after (run respond p w)) (log (run respond p w))
  end.
Proof.
  revert w. induction p as [a|e|c k IH]; intros w; cbn.
  - by destruct (run respond (f a) w).
  - done.
  - unfold mbind, prog_bind in IH. rewrite IH.
    by destruct (result (run respond (k (respond c w).1) (respond c w).2)).
Qed.

Lemma straight_call (c : op Σ) : straight (call c).
Proof. constructor; [done | constructor]. Qed.

Lemma straight_bind {A B} (p : prog Σ (err Σ) A) (f : A → prog Σ (err Σ) B) :
  straight p → (∀ a, straight (f a)) → straight (p ≫= f).
Proof.
  intros Hp Hf. induction Hp as [a|c k Hraise _ IH]; cbn.
  - apply Hf.
  - constructor.
    + intros e. by rewrite Hraise.
    + apply IH.
Qed.

(** A straight program that ends in an exception ends with the call that
    raised it: every earlier call returned, the exception is the one that
    call raised, and the world is left as that call left it. *)
Lemma straight_raised {A} (p : prog Σ (err Σ) A) (w : W) (e : err Σ) :
  straight p →
  result (run respond p w) = Raised e →
  ∃ tr c w0,
    log (run respond p w) = tr ++ [(c, inl e)] ∧
    respond c w0 = (inl e, after (run respond p w)) ∧
    Forall returned tr.
Proof.
  intros Hp. revert w. induction Hp as [a|c k Hraise _ IH]; intros w; cbn.
  - discriminate.
  - destruct (respond c w) as [[e'|x] w1] eqn:Hc; cbn.
    + rewrite Hraise. cbn. intros [= ->].
      exists [], c, w. by rewrite Hc.
    + intros Hres. destruct (IH x w1 Hres) as (tr & c' & w0 & Hlog & Hw0 & Htr).
      exists ((c, inr x) :: tr), c', w0. rewrite Hlog. split_and!; [done..|].
      constructor; [by exists x | done].
Qed.

(** A straight program that returns has seen every one of its calls return. *)
Lemma straight_returned {A} (p : prog Σ (err Σ) A) (w : W) (a : A) :
  straight p →
  result (run respond p w) = Returned a →
  Forall returned (log (run respond p w)).
Proof.
  intros Hp. revert w. induction Hp as [a'|c k Hraise _ IH]; intros w; cbn.
  - constructor.
  - destruct (respond c w) as [[e'|x] w1] eqn:Hc; cbn.
    + by rewrite Hraise.
    + intros Hres. constructor; [by exists x | by apply IH].
Qed.
End ProgFacts.

(** * The notebook cell in an arbitrary world *)

Module NotebookFacts.
Import Notebook.

(** The cell has no [raise] and no [try]: it fails only when a call fails. *)
Lemma cell_straight : straight cell.
Proof.
  unfold cell, py.
  repeat (apply straight_bind; [apply straight_call | intros ?]).
  apply straight_call.
Qed.

(** Runs the cell symbolically: one case per call that may raise, and the
    case in which every call returns. *)
Ltac run_cell respond :=
  unfold calls, cell, py, call; cbn;
  repeat match goal with
    | |- context [respond ?c ?w] =>
        is_var w; destruct (respond c w) as [[?e|?v] ?w] eqn:?; cbn
    end.

Section AnyWorld.
Context {W : Type} (respond : sdk_call → W → (exn + value) * W).

(** C9. The cell has no parameters, and on every run, in every world, the
    calls it makes are the leading part of one fixed script: the voice is
    always "en-US-JennyNeural", the text always "This is a test of Azure
    TTS.", the output file always "output.wav" (a bare file name, hence
    in the current directory); no call of the script carries a speech
    rate or a name derived from the run.  A run that returns has made
    the whole script. *)
Theorem cell_runs_fixed_script (w : W) :
  ∃ subscription region speech_config audio_config synthesizer future,
    calls (run respond cell w)
      `prefix_of` script subscription region speech_config audio_config
                         synthesizer future ∧
    (∀ v, result (run respond cell w) = Returned v →
          calls (run respond cell w)
          = script subscription region speech_config audio_config
                   synthesizer future).
Proof.
  run_cell respond.
  all: eexists _, _, _, _, _, _; (split; [eexists; reflexivity | ]).
  all: try (intros ? [=]).
  all: try reflexivity.
  Unshelve. all: exact PyNone.
Qed.

(** C6 (as amended). The cell takes no voice and no rate from anyone: the
    synthesizer is built from the very SpeechConfig object on which the
    cell set the voice name to the literal "en-US-JennyNeural"; that
    literal goes to the SDK as written, and no other voice is ever set.
    Every call of the run is one of the script, none of which takes a
    speech rate. *)
Theorem voice_literal_reaches_synthesizer (w : W)
    (speech_config audio_config : value) :
  SpeechSynthesizer speech_config audio_config
    ∈ calls (run respond cell w) →
  (∃ subscription region,
      (SpeechConfig subscription region, inr speech_config)
        ∈ log (run respond cell w)) ∧
  (∃ x, (set_speech_synthesis_voice_name speech_config "en-US-JennyNeural",
         inr x) ∈ log (run respond cell w)) ∧
  (∀ cfg name,
      set_speech_synthesis_voice_name cfg name ∈ calls (run respond cell w) →
      cfg = speech_config ∧ name = "en-US-JennyNeural") ∧
  (∃ subscription region synthesizer future,
      calls (run respond cell w)
        `prefix_of` script subscription region speech_config audio_config
                           synthesizer future).
Proof.
  run_cell respond; intros Hsynth.
  all: set_unfold in Hsynth; destruct_or?; simplify_eq.
  all: split_and!; [set_solver.. | ].
  all: eexists _, _, _, _; eexists; reflexivity.
  Unshelve. all: exact PyNone.
Qed.


(** C10. The outcome of the speech call is discarded.  Whatever the wait
    on the speech call hands back -- a completed result or a cancelled
    one -- the cell has made the same calls, returns that value as it is
    without raising, and does nothing after the wait: the world, the
    output file included, stays as the SDK left it. *)
Theorem synthesis_result_is_discarded (w : W) (future v : value) :
  (get future, inr v) ∈ log (run respond cell w) →
  result (run respond cell w) = Returned v ∧
  last (log (run respond cell w)) = Some (get future, inr v) ∧
  (∃ subscription region speech_config audio_config synthesizer,
      calls (run respond cell w)
      = script subscription region speech_config audio_config synthesizer
               future) ∧
  ∃ w0, respond (get future) w0 = (inr v, after (run respond cell w)).
Proof.
  run_cell respond; set_unfold; intros; destruct_or?; simplify_eq.
  split_and!; [done | done | by eexists _, _, _, _, _ | eauto].
Qed.

(** C5 (as amended). A run that returns has told the SDK to write to
    the fixed relative name "output.wav", and its value is what the wait
    on the speech call returned -- the result object of the SDK, not a
    path.  A run that fails raises nothing of its own making: every call
    before the last returned, and the exception is the one the last call
    raised. *)
Theorem cell_outcome_is_the_sdk_outcome (w : W) :
  match result (run respond cell w) with
  | Returned v =>
      AudioOutputConfig "output.wav" ∈ calls (run respond cell w) ∧
      (∃ future,
          last (log (run respond cell w)) = Some (get future, inr v)) ∧
      Forall returned (log (run respond cell w))
  | Raised e =>
      ∃ tr c, log (run respond cell w) = tr ++ [(c, inl e)] ∧
              Forall returned tr
  end.
Proof.
  pose proof (straight_raised respond cell w) as Hraised.
  pose proof (straight_returned respond cell w) as Hreturned.
  destruct (result (run respond cell w)) as [v|e] eqn:Hresult.
  - split_and!; [ | | by apply (Hreturned v cell_straight Hresult)].
    all: clear Hraised Hreturned; revert Hresult.
    + run_cell respond; intros [= <-]. set_solver.
    + run_cell respond; intros [= <-]. eauto.
  - destruct (Hraised e cell_straight Hresult) as (tr & c & _ & ? & _ & ?).
    eauto.
Qed.



(** Whenever the cell names an output file, the name is "output.wav". *)
Lemma output_file_name (w : W) (filename : string) :
  AudioOutputConfig filename ∈ calls (run respond cell w) →
  filename = "output.wav".
Proof.
  run_cell respond; set_solver.
Qed.
End AnyWorld.

(** C7 (as amended). Two runs of the cell, in whatever worlds, name the
    same output file, "output.wav": file names are not distinct per run,
    and a run writes where the run before it wrote. *)
Theorem every_run_names_the_same_file {W1 W2 : Type}
    (respond1 : sdk_call → W1 → (exn + value) * W1)
    (respond2 : sdk_call → W2 → (exn + value) * W2)
    (w1 : W1) (w2 : W2) (filename1 filename2 : string) :
  AudioOutputConfig filename1 ∈ calls (run respond1 cell w1) →
  AudioOutputConfig filename2 ∈ calls (run respond2 cell w2) →
  filename1 = "output.wav" ∧ filename2 = filename1.
Proof.
  intros ->%output_file_name ->%output_file_name. done.
Qed.

(** ** Runs in the reference world *)

(** Decides a closed statement by evaluation. *)
Ltac evaluate := refine (bool_decide_unpack _ _); vm_compute; exact I.

Lemma cell_runs_fixed_script_witness :
  calls first_run
  = script (PyStr "k3y") (PyStr "westeurope") (PyObj 0) (PyObj 1) (PyObj 2)
           (PyObj 3) ∧
  ∃ subscription region speech_config audio_config synthesizer future,
    calls first_run
      `prefix_of` script subscription region speech_config audio_config
                         synthesizer future ∧
    (∀ v, result first_run = Returned v →
          calls first_run
          = script subscription region speech_config audio_config
                   synthesizer future).
Proof.
  split; [vm_compute; reflexivity | ].
  exact (cell_runs_fixed_script azure once).
Defined.

(** C6, refuted as stated: whatever voice a user may have chosen, the one
    request the service receives asks for "en-US-JennyNeural". *)
Lemma chosen_voice_is_ignored :
  req_voice <$> sent (after first_run) = [Some "en-US-JennyNeural"] ∧
  ¬ (∀ chosen cfg name,
       set_speech_synthesis_voice_name cfg name ∈ calls first_run →
       name = chosen).
Proof.
  split; [vm_compute; reflexivity | ].
  intros H.
  assert (Hset : set_speech_synthesis_voice_name (PyObj 0) "en-US-JennyNeural"
                   ∈ calls first_run) by evaluate.
  discriminate (H "en-US-GuyNeural" _ _ Hset).
Qed.

Lemma voice_literal_reaches_synthesizer_witness :
  SpeechSynthesizer (PyObj 0) (PyObj 1) ∈ calls first_run ∧
  (∃ subscription region,
      (SpeechConfig subscription region, inr (PyObj 0)) ∈ log first_run) ∧
  (∃ x, (set_speech_synthesis_voice_name (PyObj 0) "en-US-JennyNeural",
         inr x) ∈ log first_run) ∧
  (∀ cfg name,
      set_speech_synthesis_voice_name cfg name ∈ calls first_run →
      cfg = PyObj 0 ∧ name = "en-US-JennyNeural") ∧
  (∃ subscription region synthesizer future,
      calls first_run
        `prefix_of` script subscription region (PyObj 0) (PyObj 1)
                           synthesizer future).
Proof.
  assert (H : SpeechSynthesizer (PyObj 0) (PyObj 1) ∈ calls first_run)
    by evaluate.
  split; [exact H | ].
  exact (voice_literal_reaches_synthesizer azure once _ _ H).
Defined.

(** C7, refuted as stated: two runs write under one and the same name, and
    the second replaces what the first wrote. *)
Lemma second_run_overwrites_first :
  AudioOutputConfig "output.wav" ∈ calls first_run ∧
  AudioOutputConfig "output.wav" ∈ calls second_run ∧
  files (after first_run) !! "output.wav" = Some RIFF ∧
  files (after second_run) !! "output.wav" = Some WAVE.
Proof.
  split_and!; [evaluate | evaluate | vm_compute; reflexivity..].
Qed.

Lemma every_run_names_the_same_file_witness :
  AudioOutputConfig "output.wav" ∈ calls first_run ∧
  AudioOutputConfig "output.wav" ∈ calls second_run ∧
  "output.wav" = "output.wav" ∧ "output.wav" = "output.wav".
Proof.
  assert (H1 : AudioOutputConfig "output.wav" ∈ calls first_run) by evaluate.
  assert (H2 : AudioOutputConfig "output.wav" ∈ calls second_run) by evaluate.
  split_and!; [exact H1 | exact H2 | ..];
    apply (every_run_names_the_same_file azure azure once twice _ _ H1 H2).
Defined.





(** C5, refuted as stated: a rejected synthesis ends in an ordinary return
    of a cancelled result, not in a SynthesisError; and a successful one
    returns the result object, not the path of a file. *)
Lemma rejected_synthesis_raises_no_SynthesisError :
  result (run azure cell refused) = Returned cancelled ∧
  ¬ fails_with exn_class "SynthesisError" (result (run azure cell refused)) ∧
  ∀ path, result first_run ≠ Returned (PyStr path).
Proof.
  split_and!.
  - vm_compute; reflexivity.
  - intros (e & He & _). vm_compute in He. discriminate He.
  - intros path He. vm_compute in He. discriminate He.
Qed.

Lemma synthesis_result_is_discarded_witness :
  (get (PyObj 3), inr cancelled) ∈ log (run azure cell refused) ∧
  result (run azure cell refused) = Returned cancelled ∧
  last (log (run azure cell refused)) = Some (get (PyObj 3), inr cancelled) ∧
  (∃ subscription region speech_config audio_config synthesizer,
      calls (run azure cell refused)
      = script subscription region speech_config audio_config synthesizer
               (PyObj 3)) ∧
  ∃ w0, azure (get (PyObj 3)) w0
        = (inr cancelled, after (run azure cell refused)).
Proof.
  assert (H : (get (PyObj 3), inr cancelled) ∈ log (run azure cell refused))
    by evaluate.
  split; [exact H | ].
  exact (synthesis_result_is_discarded azure refused (PyObj 3) cancelled H).
Defined.

(** In the reference world a cancelled synthesis and a completed one are
    told apart by nothing but the value the cell returns; the file is
    there either way, empty in the first case. *)
Example cancelled_and_completed_runs :
  calls (run azure cell refused) = calls first_run ∧
  files (after (run azure cell refused)) !! "output.wav" = Some [] ∧
  files (after first_run) !! "output.wav" = Some RIFF.
Proof. split_and!; vm_compute; reflexivity. Qed.
End NotebookFacts.

(** * The conversion pipeline and the extractor *)

Module PipelineFacts.
Import Notebook Pipeline.

Section AnyComponents.
Context {W : Type} (respond : component_call → W → (error + string) * W).

(** C2. For every request, and whatever the components do, the
    orchestration service calls the Extractor, then the Optimizer only
    if the optimize flag is set, then the Synthesizer, each at most once
    and in that order, handing on the text of the step before and the
    voice and rate of the request.  It returns the path the Synthesizer
    returned, or stops at the first component that fails and reports
    that failure tagged with its stage. *)
Theorem convert_follows_fixed_sequence (req : request) (w : W) :
  fixed_sequence req (log (run respond (convert req) w))
                     (result (run respond (convert req) w)).
Proof.
  unfold convert, tagged. cbn.
  destruct (respond (Extract (input req)) w) as [[e|text] w1]; cbn;
    [constructor | ].
  destruct (optimize req) eqn:Hopt; cbn.
  - destruct (respond (Optimize text) w1) as [[e|improved] w2]; cbn;
      [by constructor | ].
    destruct (respond (Synthesize improved (voice req) (rate req)) w2)
      as [[e|path] w3]; cbn; by constructor.
  - destruct (respond (Synthesize text (voice req) (rate req)) w1)
      as [[e|path] w2]; cbn; by constructor.
Qed.

End AnyComponents.


(** The examples of the specification: plain text without optimization is
    synthesized as it is; an unreachable URL ends the request at the
    extraction stage, before the synthesizer is called. *)
Example hello_world_is_synthesized_verbatim :
  run toy (convert hello) 0
  = RunResult (Returned "audio_output/speech.wav") 2
      [(Extract (RawText "Hello world."), inr "Hello world.");
       (Synthesize "Hello world." "en-US-AriaNeural" 1%Qc,
        inr "audio_output/speech.wav")].
Proof. reflexivity. Qed.

Example unreachable_url_fails_at_extraction :
  run toy (convert notfound) 0
  = RunResult (Raised (Failure Extraction ExtractionError)) 1
      [(Extract (Url "http://invalid.example/notfound"), inl ExtractionError)].
Proof. reflexivity. Qed.

Section AnyComponents.
Context {W : Type} (respond : component_call → W → (error + string) * W).

End AnyComponents.



End PipelineFacts.

(** * The flow of values through the cell *)

Module CellFlow.
Import Notebook NotebookFacts.

(** Finds a list, given with its order, inside a longer one. *)
Ltac pick :=
  repeat first [ apply sublist_nil | apply sublist_skip | apply sublist_cons ].

Section AnyWorld.
Context {W : Type} (respond : sdk_call → W → (exn + value) * W).


(** X2. Only an exception stops the cell: when every call made came back
    with a value -- whatever the value, False from load_dotenv, None from
    os.getenv or a cancelled result from the wait included -- the cell has
    made all nine calls and returns. *)
Theorem only_an_exception_stops_the_cell (w : W) :
  Forall returned (log (run respond cell w)) →
  ∃ v, result (run respond cell w) = Returned v ∧
       length (log (run respond cell w)) = 9.
Proof.
  run_cell respond; rewrite ?Forall_cons; unfold returned; cbn.
  all: try (intros; destruct_and?;
            repeat match goal with H : ∃ _, inl _ = inr _ |- _ =>
                     destruct H as [? [=]] end; fail).
  eauto.
Qed.

(** X3. Whenever the cell asks for speech, it does so on the synthesizer
    that was built, in this order, from the SpeechConfig on which the voice
    was set and from the audio output named "output.wav", all of which had
    returned; and the wait, if made, is made on what that very request
    returned. *)
Theorem request_uses_objects_just_built (w : W)
    (synthesizer : value) (text : string) :
  speak_text_async synthesizer text ∈ calls (run respond cell w) →
  (∃ subscription region speech_config x audio_config,
      [(SpeechConfig subscription region, inr speech_config);
       (set_speech_synthesis_voice_name speech_config "en-US-JennyNeural",
        inr x);
       (AudioOutputConfig "output.wav", inr audio_config);
       (SpeechSynthesizer speech_config audio_config, inr synthesizer)]
        `sublist_of` log (run respond cell w)) ∧
  (∀ future,
      get future ∈ calls (run respond cell w) →
      (speak_text_async synthesizer text, inr future)
        ∈ log (run respond cell w)).
Proof.
  run_cell respond; intros Hspeak.
  all: set_unfold in Hspeak; destruct_or?; simplify_eq.
  all: split; [eexists _, _, _, _, _; pick | set_solver].
Qed.

(** X4. Nothing is retried: in every run, failed or not, no call is made
    twice and at most one request for speech is made. *)
Theorem nothing_is_retried (w : W) :
  NoDup (calls (run respond cell w)) ∧
  (length (filter (λ c, requests_speech c = true)
                  (calls (run respond cell w))) ≤ 1)%nat.
Proof.
  run_cell respond.
  all: split; [ | vm_compute; lia].
  all: repeat (apply NoDup_cons; split; [set_solver | ]); apply NoDup_nil_2.
Qed.
End AnyWorld.


Lemma only_an_exception_stops_the_cell_witness :
  (load_dotenv "../.env", inr (PyBool false)) ∈ log (run azure cell exported) ∧
  ∃ v, result (run azure cell exported) = Returned v ∧
       length (log (run azure cell exported)) = 9.
Proof.
  split; [evaluate | ].
  apply (only_an_exception_stops_the_cell azure exported).
  vm_compute. repeat constructor; eexists; reflexivity.
Defined.

Lemma request_uses_objects_just_built_witness :
  speak_text_async (PyObj 2) "This is a test of Azure TTS."
    ∈ calls (run azure cell exported) ∧
  (∃ subscription region speech_config x audio_config,
      [(SpeechConfig subscription region, inr speech_config);
       (set_speech_synthesis_voice_name speech_config "en-US-JennyNeural",
        inr x);
       (AudioOutputConfig "output.wav", inr audio_config);
       (SpeechSynthesizer speech_config audio_config, inr (PyObj 2))]
        `sublist_of` log (run azure cell exported)) ∧
  (∀ future,
      get future ∈ calls (run azure cell exported) →
      (speak_text_async (PyObj 2) "This is a test of Azure TTS.", inr future)
        ∈ log (run azure cell exported)).
Proof.
  assert (H : speak_text_async (PyObj 2) "This is a test of Azure TTS."
                ∈ calls (run azure cell exported)) by evaluate.
  split; [exact H | ].
  exact (request_uses_objects_just_built azure exported _ _ H).
Defined.

(** In the reference world: an empty key is refused by the constructor, and
    an output file that cannot be opened is refused with the synthesizer;
    either way no request is sent and no file is left. *)
Example refused_before_any_request :
  fails_with exn_class "RuntimeError" (result (run azure cell empty_key)) ∧
  last (calls (run azure cell empty_key))
  = Some (SpeechConfig (PyStr "") (PyStr "westeurope")) ∧
  fails_with exn_class "RuntimeError" (result (run azure cell read_only)) ∧
  last (calls (run azure cell read_only))
  = Some (SpeechSynthesizer (PyObj 0) (PyObj 1)) ∧
  sent (after (run azure cell read_only)) = [] ∧
  files (after (run azure cell read_only)) !! "output.wav" = None.
Proof.
  split_and!; try (vm_compute; reflexivity).
  all: eexists; split; [vm_compute; reflexivity | reflexivity].
Qed.
End CellFlow.
